(** * bokeh.core.state: the [State] output-configuration holder

    A shallow embedding of [src/bokeh/core/state.py].  The class [State] is a
    mutable Python object; its methods are modelled as computations in a small
    state-and-exception monad over a [World] that holds the object's
    attributes, the store of [Document] objects, the files on disk seen by
    [os.path.isfile], and the records this module sends to its logger. *)

From stdpp Require Import base gmap sets list strings.

Local Open Scope string_scope.

(** ** Results of Python calls *)

(** Exceptions raised by the collaborators' constructors. *)
Inductive Exn : Type :=
  | ValueError (msg : string).

Inductive Res (A : Type) : Type :=
  | Ok (a : A)
  | Raise (e : Exn).
Arguments Ok {A} a.
Arguments Raise {A} e.

(** ** Collaborators that are not part of this module *)

(** Object references: a [Document] is a mutable object, compared by
    identity, so the state holds a reference into a store. *)
Definition loc := nat.

(** Modelled from the spec: [Document] (imported from [..document], whose
    source is not available) is "a shared container of plotting model
    objects"; the one built by [Document()] is empty.  Model objects are
    represented by opaque identifiers. *)
Record Document : Type := {
  roots : list nat
}.

Definition Document_empty : Document := {| roots := [] |}.

(** Modelled from the spec: [_SessionCoordinates] (imported from
    [..resources], whose source is not available) is the record
    [{sessionId, url, appPath}] built from a dict of keyword values; a
    coordinate whose key is absent from the dict is empty. *)
Record _SessionCoordinates : Type := {
  coord_session_id : option string;
  coord_url : option string;
  coord_app_path : option string
}.

(** What this module uses of its imports without fixing it: the [Resources]
    class and its constructor, the constant [DEFAULT_SESSION_ID] of
    [..client], the argument validation done by the [_SessionCoordinates]
    constructor ([None]: accepted), what its [session_id] property gives when
    no id was supplied, and the values of its [url], [server_url] and
    [app_path] properties. *)
Class Collaborators : Type := {
  Resources : Type;
  Resources_init : string -> option string -> Res Resources;
  DEFAULT_SESSION_ID : string;
  coords_check : gmap string string -> option Exn;
  coords_session_id_default : string;
  coords_url : _SessionCoordinates -> string;
  coords_server_url : _SessionCoordinates -> string;
  coords_app_path : _SessionCoordinates -> string
}.

Section Embedding.
Context `{Collab : Collaborators}.

(** Modelled from the spec: the constructor [_SessionCoordinates(props)]
    validates its arguments and stores the three coordinates found in
    [props]. *)
Definition _SessionCoordinates_init (props : gmap string string)
  : Res _SessionCoordinates :=
  match coords_check props with
  | Some e => Raise e
  | None => Ok {| coord_session_id := props !! "session_id";
                  coord_url := props !! "url";
                  coord_app_path := props !! "app_path" |}
  end.

(** Modelled from the spec: the property [_SessionCoordinates.session_id]
    reads the stored session id; [session_id_allowing_none] is its
    "none-tolerant variant". *)
Definition coords_session_id (c : _SessionCoordinates) : string :=
  match coord_session_id c with
  | Some s => s
  | None => coords_session_id_default
  end.

Definition coords_session_id_allowing_none (c : _SessionCoordinates)
  : option string :=
  coord_session_id c.

(** ** The data of a [State] object *)

(** Values stored in the file-configuration dict. *)
Inductive FileVal : Type :=
  | VStr (s : string)
  | VResources (r : Resources).

(** The attributes of a [State] instance. *)
Record State : Type := {
  last_comms_handle : option nat;
  _document : loc;
  _file : option (gmap string FileVal);
  _notebook : bool;
  _session_coords : _SessionCoordinates;
  _server_enabled : bool
}.

Record World : Type := {
  self : State;
  heap : gmap loc Document;
  files : gset string;
  info_log : list string
}.

(** ** The monad of method bodies *)

Definition M (A : Type) : Type := World -> Res A * World.

Definition ret {A} (a : A) : M A := fun w => (Ok a, w).

Definition bind {A B} (m : M A) (k : A -> M B) : M B :=
  fun w =>
    match m w with
    | (Ok a, w') => k a w'
    | (Raise e, w') => (Raise e, w')
    end.

Definition lift {A} (r : Res A) : M A := fun w => (r, w).

Definition gets {A} (f : State -> A) : M A := fun w => (Ok (f (self w)), w).

Definition modify (f : State -> State) : M unit :=
  fun w => (Ok tt, {| self := f (self w); heap := heap w;
                      files := files w; info_log := info_log w |}).

(** The world a computation leaves behind, and what it returns. *)
Definition exec {A} (m : M A) (w : World) : World := snd (m w).
Definition result {A} (m : M A) (w : World) : Res A := fst (m w).

End Embedding.

Declare Scope py_scope.
Delimit Scope py_scope with py.
Notation "x <- m ;; k" := (bind m (fun x => k))
  (at level 100, m at next level, right associativity) : py_scope.
Notation "m ;; k" := (bind m (fun _ => k))
  (at level 100, right associativity) : py_scope.

Local Open Scope py_scope.

Section Methods.
Context `{Collab : Collaborators}.

(** ** Attribute assignment: [self.<attr> = v] *)

Definition assign_last_comms_handle (v : option nat) (s : State) : State :=
  {| last_comms_handle := v; _document := _document s; _file := _file s;
     _notebook := _notebook s; _session_coords := _session_coords s;
     _server_enabled := _server_enabled s |}.

Definition assign_document (v : loc) (s : State) : State :=
  {| last_comms_handle := last_comms_handle s; _document := v;
     _file := _file s; _notebook := _notebook s;
     _session_coords := _session_coords s;
     _server_enabled := _server_enabled s |}.

Definition assign_file (v : option (gmap string FileVal)) (s : State)
  : State :=
  {| last_comms_handle := last_comms_handle s; _document := _document s;
     _file := v; _notebook := _notebook s;
     _session_coords := _session_coords s;
     _server_enabled := _server_enabled s |}.

Definition assign_notebook (v : bool) (s : State) : State :=
  {| last_comms_handle := last_comms_handle s; _document := _document s;
     _file := _file s; _notebook := v;
     _session_coords := _session_coords s;
     _server_enabled := _server_enabled s |}.

Definition assign_session_coords (v : _SessionCoordinates) (s : State)
  : State :=
  {| last_comms_handle := last_comms_handle s; _document := _document s;
     _file := _file s; _notebook := _notebook s; _session_coords := v;
     _server_enabled := _server_enabled s |}.

Definition assign_server_enabled (v : bool) (s : State) : State :=
  {| last_comms_handle := last_comms_handle s; _document := _document s;
     _file := _file s; _notebook := _notebook s;
     _session_coords := _session_coords s; _server_enabled := v |}.

(** ** Calls out of the module *)

(** Modelled from the spec: [Document()] builds "a new empty one"; as a new
    Python object it gets a reference that no object in the store has. *)
Definition Document_new : M loc :=
  fun w =>
    let l := fresh (dom (heap w)) in
    (Ok l, {| self := self w; heap := <[l := Document_empty]> (heap w);
              files := files w; info_log := info_log w |}).

(** [os.path.isfile(filename)]: whether a regular file of that name is on
    disk; total on strings. *)
Definition os_path_isfile (filename : string) : M bool :=
  fun w => (Ok (bool_decide (filename ∈ files w)), w).

(** [logger.info(msg)] *)
Definition logger_info (msg : string) : M unit :=
  fun w => (Ok tt, {| self := self w; heap := heap w; files := files w;
                      info_log := info_log w ++ [msg] |}).

(** ** Properties (state.py, lines 47-141) *)

Definition document : M loc := gets _document.

Definition document_setter (doc : loc) : M unit :=
  modify (assign_document doc).

Definition file : M (option (gmap string FileVal)) := gets _file.

Definition notebook : M bool := gets _notebook.

Definition server_enabled : M bool := gets _server_enabled.

Definition session_id : M string :=
  c <- gets _session_coords ;; ret (coords_session_id c).

Definition session_id_allowing_none : M (option string) :=
  c <- gets _session_coords ;; ret (coords_session_id_allowing_none c).

Definition url : M string :=
  c <- gets _session_coords ;; ret (coords_url c).

Definition server_url : M string :=
  c <- gets _session_coords ;; ret (coords_server_url c).

Definition app_path : M string :=
  c <- gets _session_coords ;; ret (coords_app_path c).

(** ** Methods (state.py, lines 143-251) *)

Definition _reset_keeping_doc : M unit :=
  modify (assign_file None) ;;
  modify (assign_notebook false) ;;
  c <- lift (_SessionCoordinates_init ∅) ;;
  modify (assign_session_coords c) ;;
  modify (assign_server_enabled false).

Definition _reset_with_doc (doc : loc) : M unit :=
  modify (assign_document doc) ;;
  _reset_keeping_doc.

Definition reset : M unit :=
  doc <- Document_new ;;
  _reset_with_doc doc.

(** [__init__] runs on an object none of whose attributes exists yet; the
    model runs it from an arbitrary record, of which it reads nothing. *)
Definition __init__ : M unit :=
  modify (assign_last_comms_handle None) ;;
  reset.

(** Default values of the keyword arguments. *)
Definition output_file_title_default : string := "Bokeh Plot".
Definition output_file_mode_default : string := "cdn".
Definition output_file_root_dir_default : option string := None.
Definition output_server_session_id_default : string := DEFAULT_SESSION_ID.
Definition output_server_url_default : string := "default".
Definition output_server_app_path_default : string := "/".

Definition output_file (filename title mode : string)
    (root_dir : option string) : M unit :=
  r <- lift (Resources_init mode root_dir) ;;
  modify (assign_file (Some (<["filename" := VStr filename]>
                            (<["resources" := VResources r]>
                            (<["title" := VStr title]> ∅))))) ;;
  b <- os_path_isfile filename ;;
  if b
  then logger_info ("Session output file '" ++ filename
                    ++ "' already exists, will be overwritten.")
  else ret tt.

Definition output_notebook : M unit :=
  modify (assign_notebook true).

Definition output_server (session_id url app_path : string) : M unit :=
  c <- lift (_SessionCoordinates_init
               (<["session_id" := session_id]>
               (<["url" := url]>
               (<["app_path" := app_path]> ∅)))) ;;
  modify (assign_session_coords c) ;;
  modify (assign_server_enabled true).

End Methods.

(** ** The interface of the class, as calls *)

Inductive Accessor : Type :=
  | A_document
  | A_file
  | A_notebook
  | A_server_enabled
  | A_session_id
  | A_session_id_allowing_none
  | A_url
  | A_server_url
  | A_app_path.

Section Interface.
Context `{Collab : Collaborators}.

(** What a property read returns. *)
Inductive Value : Type :=
  | ValDoc (d : loc)
  | ValFile (f : option (gmap string FileVal))
  | ValBool (b : bool)
  | ValStr (s : string)
  | ValOptStr (s : option string).

Definition read (a : Accessor) : M Value :=
  match a with
  | A_document => d <- document ;; ret (ValDoc d)
  | A_file => f <- file ;; ret (ValFile f)
  | A_notebook => b <- notebook ;; ret (ValBool b)
  | A_server_enabled => b <- server_enabled ;; ret (ValBool b)
  | A_session_id => s <- session_id ;; ret (ValStr s)
  | A_session_id_allowing_none =>
      s <- session_id_allowing_none ;; ret (ValOptStr s)
  | A_url => s <- url ;; ret (ValStr s)
  | A_server_url => s <- server_url ;; ret (ValStr s)
  | A_app_path => s <- app_path ;; ret (ValStr s)
  end.

(** One use of a [State] object by its client: a property read, an
    assignment to the [document] property or to the plain attribute
    [last_comms_handle], a method call, or the client building a [Document]
    of its own. *)
Inductive Op : Type :=
  | Get (a : Accessor)
  | SetDocument (doc : loc)
  | SetLastCommsHandle (h : option nat)
  | Reset
  | OutputFile (filename title mode : string) (root_dir : option string)
  | OutputNotebook
  | OutputServer (session_id url app_path : string)
  | ResetKeepingDoc
  | ResetWithDoc (doc : loc)
  | NewDocument.

Definition call (op : Op) : M unit :=
  match op with
  | Get a => read a ;; ret tt
  | SetDocument doc => document_setter doc
  | SetLastCommsHandle h => modify (assign_last_comms_handle h)
  | Reset => reset
  | OutputFile filename title mode root_dir =>
      output_file filename title mode root_dir
  | OutputNotebook => output_notebook
  | OutputServer session_id url app_path =>
      output_server session_id url app_path
  | ResetKeepingDoc => _reset_keeping_doc
  | ResetWithDoc doc => _reset_with_doc doc
  | NewDocument => Document_new ;; ret tt
  end.



(** A client's uses in sequence; an exception raised by one does not stop
    the following ones (the client may catch it). *)
Definition run (ops : list Op) (w : World) : World :=
  foldl (fun w op => exec (call op) w) w ops.

(** References are to objects that exist: the document of the state is in
    the store, and so is every document a client passes in. *)
Definition world_wf (w : World) : Prop :=
  _document (self w) ∈ dom (heap w).

Definition op_scoped (op : Op) (w : World) : Prop :=
  match op with
  | SetDocument doc | ResetWithDoc doc => doc ∈ dom (heap w)
  | _ => True
  end.

Fixpoint scoped (ops : list Op) (w : World) : Prop :=
  match ops with
  | [] => True
  | op :: ops' => op_scoped op w /\ scoped ops' (exec (call op) w)
  end.

(** The three methods that reset the output modes. *)
Definition is_reset_variant (op : Op) : bool :=
  match op with
  | Reset | ResetKeepingDoc | ResetWithDoc _ => true
  | _ => false
  end.

Definition is_output_file (op : Op) : bool :=
  match op with
  | OutputFile _ _ _ _ => true
  | _ => false
  end.


End Interface.

(** ** A sample of collaborators, to run the model on concrete inputs *)

Module Sample.

(** The modes listed in the docstring of [output_file]. *)
Inductive Mode : Type :=
  | inline | cdn | relative | relative_dev | absolute | absolute_dev.

Record SampleResources : Type := {
  res_mode : Mode;
  res_root_dir : option string
}.

Definition parse_mode (s : string) : option Mode :=
  if decide (s = "inline") then Some inline
  else if decide (s = "cdn") then Some cdn
  else if decide (s = "relative") then Some relative
  else if decide (s = "relative-dev") then Some relative_dev
  else if decide (s = "absolute") then Some absolute
  else if decide (s = "absolute-dev") then Some absolute_dev
  else None.

Definition resources_init (mode : string) (root_dir : option string)
  : Res SampleResources :=
  match parse_mode mode with
  | Some m => Ok {| res_mode := m; res_root_dir := root_dir |}
  | None => Raise (ValueError "unknown resources mode")
  end.

(** Rejects an empty [url]. *)
Definition check (props : gmap string string) : option Exn :=
  match props !! "url" with
  | Some u => if decide (u = "") then Some (ValueError "empty url") else None
  | None => None
  end.

Definition or_empty (o : option string) : string := default "" o.

#[export] Instance collaborators : Collaborators := {|
  Resources := SampleResources;
  Resources_init := resources_init;
  DEFAULT_SESSION_ID := "default";
  coords_check := check;
  coords_session_id_default := "default";
  coords_url := fun c => or_empty (coord_url c);
  coords_server_url :=
    fun c => or_empty (coord_url c) ++ or_empty (coord_app_path c);
  coords_app_path := fun c => or_empty (coord_app_path c)
|}.

Definition state0 : State := {|
  last_comms_handle := None;
  _document := 0;
  _file := None;
  _notebook := false;
  _session_coords := {| coord_session_id := None; coord_url := None;
                        coord_app_path := None |};
  _server_enabled := false
|}.

(** A world with one document and one file on disk. *)
Definition world0 : World := {|
  self := state0;
  heap := {[ 0 := Document_empty ]};
  files := {[ "a.html" ]};
  info_log := []
|}.

(** A world in which the three output modes are active. *)
Definition world_on : World := {|
  self := {| last_comms_handle := Some 3;
             _document := 0;
             _file := Some {[ "filename" := VStr "old.html" ]};
             _notebook := true;
             _session_coords := {| coord_session_id := Some "s";
                                   coord_url := Some "http://h";
                                   coord_app_path := Some "/" |};
             _server_enabled := true |};
  heap := {[ 0 := {| roots := [4; 5] |} ]};
  files := {[ "a.html" ]};
  info_log := ["earlier"]
|}.

End Sample.

(** * Properties *)

Section Properties.
Context `{Collab : Collaborators}.

(** The coordinates with no entry, and the dict built by [output_file]. *)
Definition coords_empty : _SessionCoordinates :=
  {| coord_session_id := None; coord_url := None; coord_app_path := None |}.

Definition file_config (filename title : string) (r : Resources)
  : gmap string FileVal :=
  <["filename" := VStr filename]>
    (<["resources" := VResources r]> (<["title" := VStr title]> ∅)).

Definition server_props (session_id url app_path : string)
  : gmap string string :=
  <["session_id" := session_id]>
    (<["url" := url]> (<["app_path" := app_path]> ∅)).

(** The record logged by [output_file] for a file that exists. *)
Definition exists_message (filename : string) : string :=
  "Session output file '" ++ filename
  ++ "' already exists, will be overwritten.".

(** The same world with other files on disk. *)
Definition with_files (fs : gset string) (w : World) : World :=
  {| self := self w; heap := heap w; files := fs; info_log := info_log w |}.

Ltac unfold_py :=
  unfold exec, result, call, read, reset, _reset_with_doc,
    _reset_keeping_doc, __init__, output_file, output_notebook,
    output_server, document_setter, document, file, notebook,
    server_enabled, session_id, session_id_allowing_none, url, server_url,
    app_path, Document_new, os_path_isfile, logger_info, modify, gets, lift,
    bind, ret in *.

(** ** Collaborator facts *)

Lemma _SessionCoordinates_init_empty :
  coords_check ∅ = None -> _SessionCoordinates_init ∅ = Ok coords_empty.
Proof.
  intros Hc. unfold _SessionCoordinates_init. rewrite Hc.
  unfold coords_empty. by rewrite !lookup_empty.
Qed.

Lemma _SessionCoordinates_init_props (s u p : string) :
  coords_check (server_props s u p) = None ->
  _SessionCoordinates_init (server_props s u p)
  = Ok {| coord_session_id := Some s; coord_url := Some u;
          coord_app_path := Some p |}.
Proof.
  intros Hc. unfold _SessionCoordinates_init. rewrite Hc.
  unfold server_props. do 2 f_equal.
Qed.

(** ** What each method leaves behind *)

Lemma _reset_keeping_doc_run (w : World) :
  coords_check ∅ = None ->
  _reset_keeping_doc w
  = (Ok tt,
     {| self := {| last_comms_handle := last_comms_handle (self w);
                   _document := _document (self w);
                   _file := None; _notebook := false;
                   _session_coords := coords_empty;
                   _server_enabled := false |};
        heap := heap w; files := files w; info_log := info_log w |}).
Proof.
  intros Hc. unfold_py. rewrite (_SessionCoordinates_init_empty Hc).
  reflexivity.
Qed.

Lemma reset_run (w : World) :
  coords_check ∅ = None ->
  reset w
  = (Ok tt,
     {| self := {| last_comms_handle := last_comms_handle (self w);
                   _document := fresh (dom (heap w));
                   _file := None; _notebook := false;
                   _session_coords := coords_empty;
                   _server_enabled := false |};
        heap := <[fresh (dom (heap w)) := Document_empty]> (heap w);
        files := files w; info_log := info_log w |}).
Proof.
  intros Hc. unfold reset, _reset_with_doc, Document_new, bind at 1 2.
  unfold modify at 1. rewrite _reset_keeping_doc_run by done.
  reflexivity.
Qed.

Lemma init_run (w : World) :
  coords_check ∅ = None ->
  __init__ w
  = (Ok tt,
     {| self := {| last_comms_handle := None;
                   _document := fresh (dom (heap w));
                   _file := None; _notebook := false;
                   _session_coords := coords_empty;
                   _server_enabled := false |};
        heap := <[fresh (dom (heap w)) := Document_empty]> (heap w);
        files := files w; info_log := info_log w |}).
Proof.
  intros Hc. unfold __init__, bind, modify. by rewrite reset_run.
Qed.

(** A State exists only where [__init__] returned, and there the
    [_SessionCoordinates] constructor accepted the empty dict. *)
Lemma init_ok_accepts_empty (w : World) :
  result __init__ w = Ok tt -> coords_check ∅ = None.
Proof.
  unfold result, __init__, reset, _reset_with_doc, _reset_keeping_doc,
    Document_new, _SessionCoordinates_init, modify, lift, bind.
  simpl. destruct (coords_check ∅); [discriminate|done].
Qed.

Lemma output_file_run (w : World) (f t m : string) (rd : option string)
    (r : Resources) :
  Resources_init m rd = Ok r ->
  output_file f t m rd w
  = (Ok tt,
     {| self := assign_file (Some (file_config f t r)) (self w);
        heap := heap w; files := files w;
        info_log :=
          info_log w ++
          (if bool_decide (f ∈ files w) then [exists_message f] else []) |}).
Proof.
  intros Hr. unfold_py. rewrite Hr. simpl.
  destruct (bool_decide (f ∈ files w)); simpl.
  - reflexivity.
  - by rewrite app_nil_r.
Qed.

Lemma output_file_raises (w : World) (f t m : string) (rd : option string)
    (e : Exn) :
  Resources_init m rd = Raise e -> output_file f t m rd w = (Raise e, w).
Proof. intros Hr. unfold_py. by rewrite Hr. Qed.

(** ** The store of documents only grows *)

Lemma heap_call (op : Op) (w : World) :
  heap (exec (call op) w) = heap w \/
  heap (exec (call op) w) = <[fresh (dom (heap w)) := Document_empty]> (heap w).
Proof.
  destruct op as [a| | | | f t m rd | | s u p | | |]; unfold_py;
    unfold _SessionCoordinates_init; simpl.
  - destruct a; auto.
  - auto.
  - auto.
  - right. by destruct (coords_check ∅).
  - left. destruct (Resources_init m rd); simpl; [|done].
    by destruct (bool_decide (f ∈ files w)).
  - auto.
  - left. by destruct (coords_check _).
  - left. by destruct (coords_check ∅).
  - left. by destruct (coords_check ∅).
  - auto.
Qed.

Lemma heap_dom_call (op : Op) (w : World) :
  dom (heap w) ⊆ dom (heap (exec (call op) w)).
Proof.
  destruct (heap_call op w) as [-> | ->]; [done|].
  rewrite dom_insert_L. set_solver.
Qed.

Lemma heap_dom_run (ops : list Op) (w : World) :
  dom (heap w) ⊆ dom (heap (run ops w)).
Proof.
  revert w. induction ops as [|op ops IH]; intros w; simpl; [done|].
  etrans; [apply (heap_dom_call op)|apply IH].
Qed.

Lemma reset_document (w : World) :
  _document (self (exec reset w)) = fresh (dom (heap w)) /\
  heap (exec reset w) = <[fresh (dom (heap w)) := Document_empty]> (heap w).
Proof.
  unfold_py. unfold _SessionCoordinates_init.
  by destruct (coords_check ∅).
Qed.

(** ** References stay within the store *)

Lemma wf_call (op : Op) (w : World) :
  world_wf w -> op_scoped op w -> world_wf (exec (call op) w).
Proof.
  unfold world_wf.
  destruct op as [a| d | | | f t m rd | | s u p | | d |]; unfold_py;
    unfold _SessionCoordinates_init; simpl; intros Hwf Hsc.
  - by destruct a.
  - done.
  - done.
  - destruct (coords_check ∅); simpl; rewrite dom_insert_L; set_solver.
  - destruct (Resources_init m rd); simpl; [|done].
    by destruct (bool_decide (f ∈ files w)).
  - done.
  - by destruct (coords_check _).
  - by destruct (coords_check ∅).
  - by destruct (coords_check ∅).
  - rewrite dom_insert_L. set_solver.
Qed.

Lemma wf_run (ops : list Op) (w : World) :
  world_wf w -> scoped ops w -> world_wf (run ops w).
Proof.
  revert w. induction ops as [|op ops IH]; intros w Hwf Hsc; simpl; [done|].
  destruct Hsc as [Hop Hrest]. apply IH; [by apply wf_call|done].
Qed.

Lemma wf_init (w : World) : world_wf (exec __init__ w).
Proof.
  unfold world_wf, exec, __init__, bind, modify. simpl.
  match goal with
  | |- context [reset ?w0] => destruct (reset_document w0) as [Hd Hh]
  end.
  unfold exec in Hd, Hh. rewrite Hd, Hh, dom_insert_L. set_solver.
Qed.

(** ** reset *)

(** C1: for every State, after [reset()] the file configuration is [None],
    the notebook flag is [False], the server-enabled flag is [False] and the
    session coordinates are the empty ones, built from an empty dict.  The
    call returns normally when the [_SessionCoordinates] constructor accepts
    the empty dict, which it did when the State was built. *)
Theorem reset_clears_output_modes (w : World) :
  coords_check ∅ = None ->
  result reset w = Ok tt /\
  result file (exec reset w) = Ok None /\
  result notebook (exec reset w) = Ok false /\
  result server_enabled (exec reset w) = Ok false /\
  result session_id_allowing_none (exec reset w) = Ok None /\
  _session_coords (self (exec reset w)) = coords_empty /\
  _SessionCoordinates_init ∅ = Ok (_session_coords (self (exec reset w))).
Proof.
  intros Hc. unfold exec, result. rewrite (reset_run w Hc). simpl.
  repeat split. by apply _SessionCoordinates_init_empty.
Qed.

(** C7: every call to [reset()] installs a newly built, empty Document: its
    reference was not in use before the call, so it differs from the
    Document held before the call, and it differs from the one installed by
    any other call to [reset()], whatever the client does in between. *)
Theorem reset_installs_new_document (w : World) :
  world_wf w ->
  (_document (self (exec reset w)) ∉ dom (heap w)) /\
  heap (exec reset w) !! _document (self (exec reset w))
    = Some Document_empty /\
  _document (self (exec reset w)) ≠ _document (self w) /\
  forall ops : list Op,
    _document (self (exec reset (run ops (exec reset w))))
    ≠ _document (self (exec reset w)).
Proof.
  intros Hwf. destruct (reset_document w) as [Hd Hh].
  rewrite Hd, Hh. split; [apply is_fresh|].
  split; [by rewrite lookup_insert_eq|].
  split.
  - intros Heq. unfold world_wf in Hwf. rewrite <- Heq in Hwf.
    by apply is_fresh in Hwf.
  - intros ops Heq.
    destruct (reset_document (run ops (exec reset w))) as [Hd2 _].
    rewrite Hd2 in Heq.
    assert (fresh (dom (heap w)) ∈ dom (heap (run ops (exec reset w))))
      as Hin.
    { apply (heap_dom_run ops). rewrite Hh, dom_insert_L. set_solver. }
    rewrite <- Heq in Hin. by apply is_fresh in Hin.
Qed.

(** C8: [_reset_keeping_doc] clears all output modes (file configuration to
    [None], notebook flag to [False], session coordinates to empty,
    server-enabled flag to [False]) and leaves the owned Document, and the
    whole store of documents, unchanged. *)
Theorem reset_keeping_doc_keeps_document (w : World) :
  coords_check ∅ = None ->
  result _reset_keeping_doc w = Ok tt /\
  _file (self (exec _reset_keeping_doc w)) = None /\
  _notebook (self (exec _reset_keeping_doc w)) = false /\
  _session_coords (self (exec _reset_keeping_doc w)) = coords_empty /\
  _server_enabled (self (exec _reset_keeping_doc w)) = false /\
  _document (self (exec _reset_keeping_doc w)) = _document (self w) /\
  heap (exec _reset_keeping_doc w) = heap w.
Proof.
  intros Hc. unfold exec, result. rewrite (_reset_keeping_doc_run w Hc).
  simpl. by repeat split.
Qed.

(** C10: a newly constructed State is in the fully reset configuration: it
    owns a new empty Document, its file configuration is [None], its
    notebook flag is [False], its session coordinates are empty, its
    server-enabled flag is [False] and its [last_comms_handle] is [None]. *)
Theorem init_gives_reset_configuration (w : World) :
  coords_check ∅ = None ->
  result __init__ w = Ok tt /\
  last_comms_handle (self (exec __init__ w)) = None /\
  _file (self (exec __init__ w)) = None /\
  _notebook (self (exec __init__ w)) = false /\
  _session_coords (self (exec __init__ w)) = coords_empty /\
  _server_enabled (self (exec __init__ w)) = false /\
  (_document (self (exec __init__ w)) ∉ dom (heap w)) /\
  heap (exec __init__ w) !! _document (self (exec __init__ w))
    = Some Document_empty /\
  self (exec reset (exec __init__ w))
    = assign_document (_document (self (exec reset (exec __init__ w))))
        (self (exec __init__ w)).
Proof.
  intros Hc. unfold exec, result. rewrite (init_run w Hc).
  rewrite (reset_run _ Hc). simpl.
  repeat split; try done.
  - apply is_fresh.
  - by rewrite lookup_insert_eq.
Qed.

(** ** output_file *)

(** C2: for every State and filenames [a] and [b], [output_file(a)] followed
    by [output_file(b)] leaves the file configuration that the second call
    alone produces, from this or from any other state: a dict of exactly the
    three keys, whose ['filename'] entry is [b] and whose other entries are
    those of the second call; nothing of the first call survives. *)
Theorem output_file_last_write_wins (w : World) (a ta ma : string)
    (rda : option string) (b tb mb : string) (rdb : option string)
    (r : Resources) :
  Resources_init mb rdb = Ok r ->
  _file (self (exec (output_file b tb mb rdb)
                 (exec (output_file a ta ma rda) w)))
    = Some (file_config b tb r) /\
  (forall w' : World,
     _file (self (exec (output_file b tb mb rdb) w'))
     = _file (self (exec (output_file b tb mb rdb)
                      (exec (output_file a ta ma rda) w)))) /\
  file_config b tb r !! "filename" = Some (VStr b) /\
  file_config b tb r !! "resources" = Some (VResources r) /\
  file_config b tb r !! "title" = Some (VStr tb) /\
  dom (file_config b tb r) = {[ "filename"; "resources"; "title" ]}.
Proof.
  intros Hr. unfold exec.
  rewrite (output_file_run _ b tb mb rdb r Hr). simpl.
  split; [done|]. split.
  - intros w'. by rewrite (output_file_run _ b tb mb rdb r Hr).
  - unfold file_config. repeat split; try done.
Qed.

(** C3: for every State, [output_notebook()] followed by [output_file(...)]
    leaves both modes active: the notebook flag is [True] and the file
    configuration is the one set by [output_file]; [output_notebook] does not
    touch the file configuration and [output_file] does not touch the
    notebook flag. *)
Theorem notebook_then_file_both_active (w : World) (f t m : string)
    (rd : option string) (r : Resources) :
  Resources_init m rd = Ok r ->
  result (output_notebook ;; output_file f t m rd) w = Ok tt /\
  result notebook (exec (output_notebook ;; output_file f t m rd) w)
    = Ok true /\
  result file (exec (output_notebook ;; output_file f t m rd) w)
    = Ok (Some (file_config f t r)) /\
  (forall w0 : World,
     _file (self (exec output_notebook w0)) = _file (self w0)) /\
  (forall w0 : World,
     _notebook (self (exec (output_file f t m rd) w0))
     = _notebook (self w0)).
Proof.
  intros Hr. unfold exec, result, bind, output_notebook, modify.
  rewrite (output_file_run _ f t m rd r Hr). simpl.
  repeat split. intros w0. by rewrite (output_file_run _ f t m rd r Hr).
Qed.

(** C4: for every State and all arguments, [output_file] changes no
    attribute but the file configuration: the document (reference and
    store), the notebook flag, the session coordinates and the
    server-enabled flag are unchanged, whether the call returns or raises. *)
Theorem output_file_frame (w : World) (f t m : string) (rd : option string) :
  _document (self (exec (output_file f t m rd) w)) = _document (self w) /\
  heap (exec (output_file f t m rd) w) = heap w /\
  _notebook (self (exec (output_file f t m rd) w)) = _notebook (self w) /\
  _session_coords (self (exec (output_file f t m rd) w))
    = _session_coords (self w) /\
  _server_enabled (self (exec (output_file f t m rd) w))
    = _server_enabled (self w) /\
  last_comms_handle (self (exec (output_file f t m rd) w))
    = last_comms_handle (self w).
Proof.
  unfold exec. destruct (Resources_init m rd) as [r|e] eqn:Hr.
  - by rewrite (output_file_run _ f t m rd r Hr).
  - by rewrite (output_file_raises _ f t m rd e Hr).
Qed.

(** C9: [output_file] does not fail because the target file exists.  Whether
    it returns or raises, and the attributes it leaves, are the same
    whatever files are on disk; when [Resources] accepts the arguments it
    returns normally with the file configuration set to the new values, and
    an existing file adds one informational log record and nothing else. *)
Theorem output_file_existing_file_is_no_error (w : World) (f t m : string)
    (rd : option string) :
  (forall fs : gset string,
     result (output_file f t m rd) (with_files fs w)
       = result (output_file f t m rd) w /\
     self (exec (output_file f t m rd) (with_files fs w))
       = self (exec (output_file f t m rd) w)) /\
  (forall r : Resources,
     Resources_init m rd = Ok r ->
     result (output_file f t m rd) w = Ok tt /\
     _file (self (exec (output_file f t m rd) w))
       = Some (file_config f t r) /\
     info_log (exec (output_file f t m rd) w)
       = (info_log w ++
          (if bool_decide (f ∈ files w) then [exists_message f] else []))%list).
Proof.
  unfold exec, result. split.
  - intros fs. destruct (Resources_init m rd) as [r|e] eqn:Hr.
    + by rewrite !(output_file_run _ f t m rd r Hr).
    + by rewrite !(output_file_raises _ f t m rd e Hr).
  - intros r Hr. by rewrite (output_file_run _ f t m rd r Hr).
Qed.

(** ** output_server *)

(** C5: for every State, [output_server(session_id=s)] sets the
    server-enabled flag to [True] and afterwards the [session_id] property
    reads back as [s] (in particular for [s = "x"] and the default [url] and
    [app_path]), when the [_SessionCoordinates] constructor accepts the
    arguments. *)
Theorem output_server_sets_session_id (w : World) (s u p : string) :
  coords_check (server_props s u p) = None ->
  result (output_server s u p) w = Ok tt /\
  result server_enabled (exec (output_server s u p) w) = Ok true /\
  result session_id (exec (output_server s u p) w) = Ok s /\
  result session_id_allowing_none (exec (output_server s u p) w)
    = Ok (Some s).
Proof.
  intros Hc. unfold exec, result, output_server, bind, lift.
  fold (server_props s u p).
  rewrite (_SessionCoordinates_init_props s u p Hc). by simpl.
Qed.

(** ** Properties are reads *)

Lemma read_pure (a : Accessor) (w : World) : exec (read a) w = w.
Proof. by destruct a. Qed.


(** * Further properties of the methods *)

(** ** What a failing call leaves *)

(** X1: [output_file] builds its [Resources] before it assigns anything: when
    the constructor raises, the same exception leaves [output_file], and the
    state is as before, with the previous file configuration and no log
    record, whether or not the file exists. *)
Theorem output_file_raise_changes_nothing (w : World) (f t m : string)
    (rd : option string) (e : Exn) :
  Resources_init m rd = Raise e ->
  result (output_file f t m rd) w = Raise e /\
  exec (output_file f t m rd) w = w.
Proof.
  intros Hr. unfold exec, result, output_file, bind, lift.
  by rewrite Hr.
Qed.

(** X2: [output_server] builds the coordinates before it assigns anything: when
    the [_SessionCoordinates] constructor raises, the same exception leaves
    [output_server], the server-enabled flag is not turned on and the
    previous coordinates stay. *)
Theorem output_server_raise_changes_nothing (w : World) (s u p : string)
    (e : Exn) :
  _SessionCoordinates_init (server_props s u p) = Raise e ->
  result (output_server s u p) w = Raise e /\
  exec (output_server s u p) w = w.
Proof.
  intros Hc. unfold exec, result, output_server, bind, lift.
  fold (server_props s u p). by rewrite Hc.
Qed.

(** ** Frames *)

(** X3: [output_server] changes no attribute but the session coordinates and the
    server-enabled flag: document, store, file configuration, notebook flag,
    [last_comms_handle], files on disk and log are unchanged, whether it
    returns or raises. *)
Theorem output_server_frame (w : World) (s u p : string) :
  _document (self (exec (output_server s u p) w)) = _document (self w) /\
  heap (exec (output_server s u p) w) = heap w /\
  _file (self (exec (output_server s u p) w)) = _file (self w) /\
  _notebook (self (exec (output_server s u p) w)) = _notebook (self w) /\
  last_comms_handle (self (exec (output_server s u p) w))
    = last_comms_handle (self w) /\
  files (exec (output_server s u p) w) = files w /\
  info_log (exec (output_server s u p) w) = info_log w.
Proof.
  unfold exec, output_server, bind, lift.
  by destruct (_SessionCoordinates_init _).
Qed.


(** ** How the methods compose *)

(** X5: The three output methods commute pairwise: the order in which two of
    them are called makes no difference to the state they leave, whether or
    not either raises. *)
Theorem output_modes_commute (w : World) (f t m : string)
    (rd : option string) (s u p : string) :
  exec output_notebook (exec (output_file f t m rd) w)
    = exec (output_file f t m rd) (exec output_notebook w) /\
  exec output_notebook (exec (output_server s u p) w)
    = exec (output_server s u p) (exec output_notebook w) /\
  exec (output_server s u p) (exec (output_file f t m rd) w)
    = exec (output_file f t m rd) (exec (output_server s u p) w).
Proof.
  unfold exec, output_file, output_notebook, output_server, os_path_isfile,
    logger_info, modify, bind, lift, ret. simpl.
  destruct (Resources_init m rd) as [r|e1];
    destruct (_SessionCoordinates_init _) as [c|e2]; simpl;
    destruct (bool_decide (f ∈ files w)); simpl; done.
Qed.

(** X6: [_reset_with_doc] called with the document the state already holds is
    [_reset_keeping_doc]; with any document, the [document] property reads
    that document afterwards and the store is unchanged, even when the call
    raises. *)
Theorem reset_with_doc_and_keeping_doc (w : World) :
  _reset_with_doc (_document (self w)) w = _reset_keeping_doc w /\
  (forall doc : loc,
     result document (exec (_reset_with_doc doc) w) = Ok doc /\
     heap (exec (_reset_with_doc doc) w) = heap w).
Proof.
  split.
  - destruct w as [[h d fl nb sc se] hp fs lg].
    unfold _reset_with_doc, bind, modify. reflexivity.
  - intros doc.
    unfold exec, result, _reset_with_doc, _reset_keeping_doc, document,
      gets, modify, bind, lift. simpl.
    by destruct (_SessionCoordinates_init ∅).
Qed.

(** X7: Calling [_reset_keeping_doc], [output_notebook] or [output_server] (with
    the same arguments) a second time changes nothing. *)
Theorem repeated_call_changes_nothing (w : World) (s u p : string) :
  exec _reset_keeping_doc (exec _reset_keeping_doc w)
    = exec _reset_keeping_doc w /\
  exec output_notebook (exec output_notebook w) = exec output_notebook w /\
  exec (output_server s u p) (exec (output_server s u p) w)
    = exec (output_server s u p) w.
Proof.
  unfold exec, _reset_keeping_doc, output_notebook, output_server, modify,
    bind, lift. simpl.
  split; [by destruct (_SessionCoordinates_init ∅)|].
  split; [done|].
  by destruct (_SessionCoordinates_init _).
Qed.

(** X8: Calling [output_file] a second time with the same arguments leaves the
    same attributes, but the note about an existing file is logged at every
    call. *)
Theorem output_file_repeated (w : World) (f t m : string)
    (rd : option string) :
  self (exec (output_file f t m rd) (exec (output_file f t m rd) w))
    = self (exec (output_file f t m rd) w) /\
  (forall r : Resources,
     Resources_init m rd = Ok r ->
     info_log (exec (output_file f t m rd) (exec (output_file f t m rd) w))
     = (info_log w
        ++ (if bool_decide (f ∈ files w) then [exists_message f] else [])
        ++ (if bool_decide (f ∈ files w) then [exists_message f] else []))%list).
Proof.
  unfold exec. split.
  - destruct (Resources_init m rd) as [r|e] eqn:Hr.
    + by rewrite !(output_file_run _ f t m rd r Hr).
    + by rewrite !(output_file_raises _ f t m rd e Hr).
  - intros r Hr. rewrite !(output_file_run _ f t m rd r Hr). simpl.
    by rewrite <- app_assoc.
Qed.

(** X9: Of two calls to [output_server], the coordinates of the second stay:
    when the constructor accepts the second call's arguments, the
    coordinates are the object it built, the same from every earlier state,
    and the server-enabled flag is on. *)
Theorem output_server_last_write_wins (w : World) (s1 u1 p1 s2 u2 p2 : string)
    (c : _SessionCoordinates) :
  _SessionCoordinates_init (server_props s2 u2 p2) = Ok c ->
  _session_coords
    (self (exec (output_server s2 u2 p2) (exec (output_server s1 u1 p1) w)))
    = c /\
  _server_enabled
    (self (exec (output_server s2 u2 p2) (exec (output_server s1 u1 p1) w)))
    = true /\
  (forall w' : World,
     _session_coords (self (exec (output_server s2 u2 p2) w')) = c).
Proof.
  intros Hc. unfold exec, output_server, bind, lift, modify.
  fold (server_props s1 u1 p1). fold (server_props s2 u2 p2).
  rewrite Hc. simpl.
  by destruct (_SessionCoordinates_init (server_props s1 u1 p1)).
Qed.

(** ** What holds along any sequence of uses *)

Lemma unfold_run_cons (op : Op) (ops : list Op) (w : World) :
  run (op :: ops) w = run ops (exec (call op) w).
Proof. reflexivity. Qed.

Lemma modes_call (op : Op) (w : World) :
  is_reset_variant op = false ->
  (_notebook (self w) = true -> _notebook (self (exec (call op) w)) = true) /\
  (_server_enabled (self w) = true ->
   _server_enabled (self (exec (call op) w)) = true) /\
  (is_Some (_file (self w)) -> is_Some (_file (self (exec (call op) w)))).
Proof.
  destruct op as [a| d | h | | f t m rd | | s u p | | d |]; try discriminate;
    intros _; unfold exec, call.
  - pose proof (read_pure a w) as Hp. unfold exec in Hp.
    unfold bind, ret. destruct (read a w) as [[v|e] w']; simpl in *; by subst.
  - done.
  - done.
  - destruct (Resources_init m rd) as [r|e] eqn:Hr.
    + rewrite (output_file_run _ f t m rd r Hr). simpl. by eauto.
    + by rewrite (output_file_raises _ f t m rd e Hr).
  - done.
  - unfold output_server, bind, lift.
    by destruct (_SessionCoordinates_init _).
  - done.
Qed.

(** X10: An output mode that is active stays active until one of the reset
    methods is called: along any sequence of uses without [reset],
    [_reset_keeping_doc] and [_reset_with_doc], a notebook flag that is on
    stays on, a server-enabled flag that is on stays on, and a file
    configuration that is set stays set. *)
Theorem modes_stay_active_without_reset (ops : list Op) (w : World) :
  Forall (fun op => is_reset_variant op = false) ops ->
  (_notebook (self w) = true -> _notebook (self (run ops w)) = true) /\
  (_server_enabled (self w) = true ->
   _server_enabled (self (run ops w)) = true) /\
  (is_Some (_file (self w)) -> is_Some (_file (self (run ops w)))).
Proof.
  intros Hall. revert w.
  induction Hall as [|op ops Hop _ IH]; intros w; [done|].
  rewrite unfold_run_cons.
  destruct (modes_call op w Hop) as (Hn & Hs & Hf).
  destruct (IH (exec (call op) w)) as (IHn & IHs & IHf).
  auto.
Qed.

Lemma heap_subseteq_call (op : Op) (w : World) :
  heap w ⊆ heap (exec (call op) w).
Proof.
  destruct (heap_call op w) as [-> | ->]; [done|].
  apply insert_subseteq, not_elem_of_dom, is_fresh.
Qed.

(** X11: No use of a State removes or alters a document: a document that is in
    the store stays there, with the same content, along any sequence of
    uses; [reset] replaces the reference the state holds, not the document
    it held. *)
Theorem documents_are_never_altered (ops : list Op) (w : World) (l : loc)
    (d : Document) :
  heap w !! l = Some d -> heap (run ops w) !! l = Some d.
Proof.
  revert w. induction ops as [|op ops IH]; intros w Hl; [done|].
  rewrite unfold_run_cons. apply IH.
  by apply (lookup_weaken _ _ _ _ Hl), heap_subseteq_call.
Qed.

Lemma log_call (op : Op) (w : World) :
  files (exec (call op) w) = files w /\
  info_log w `prefix_of` info_log (exec (call op) w) /\
  (is_output_file op = false -> info_log (exec (call op) w) = info_log w).
Proof.
  destruct op as [a| d | h | | f t m rd | | s u p | | d |]; unfold exec, call.
  - pose proof (read_pure a w) as Hp. unfold exec in Hp.
    unfold bind, ret. destruct (read a w) as [[v|e] w']; simpl in *; by subst.
  - done.
  - done.
  - unfold reset, _reset_with_doc, _reset_keeping_doc, Document_new, bind,
      lift, modify. simpl.
    by destruct (_SessionCoordinates_init ∅).
  - destruct (Resources_init m rd) as [r|e] eqn:Hr.
    + rewrite (output_file_run _ f t m rd r Hr). simpl.
      split; [done|]. split; [by apply prefix_app_r|done].
    + by rewrite (output_file_raises _ f t m rd e Hr).
  - done.
  - unfold output_server, bind, lift.
    by destruct (_SessionCoordinates_init _).
  - unfold _reset_keeping_doc, bind, lift, modify. simpl.
    by destruct (_SessionCoordinates_init ∅).
  - unfold _reset_with_doc, _reset_keeping_doc, bind, lift, modify. simpl.
    by destruct (_SessionCoordinates_init ∅).
  - done.
Qed.

(** X12: No use of a State touches the files on disk or drops a log record: along
    any sequence of uses the files are the same and the log only grows; it
    grows through [output_file] alone. *)
Theorem files_untouched_log_grows (ops : list Op) (w : World) :
  files (run ops w) = files w /\
  info_log w `prefix_of` info_log (run ops w) /\
  (Forall (fun op => is_output_file op = false) ops ->
   info_log (run ops w) = info_log w).
Proof.
  revert w. induction ops as [|op ops IH]; intros w; [done|].
  rewrite unfold_run_cons.
  destruct (log_call op w) as (Hf & Hp & Hn).
  destruct (IH (exec (call op) w)) as (IHf & IHp & IHn).
  split; [congruence|]. split; [by etrans|].
  intros Hall. inversion Hall as [|? ? Hop Hrest]; subst.
  rewrite (IHn Hrest). by apply Hn.
Qed.

(** X13: From its construction on, a State holds a document that exists: after
    [__init__] and any sequence of uses in which the client passes in only
    documents that exist, the document of the state is in the store. *)
Theorem document_always_in_store (ops : list Op) (w : World) :
  scoped ops (exec __init__ w) ->
  world_wf (run ops (exec __init__ w)).
Proof.
  intros Hsc. apply wf_run; [apply wf_init|done].
Qed.

End Properties.

(** * The theorems at concrete inputs *)

Import Sample.

Lemma reset_clears_output_modes_witness :
  coords_check ∅ = None /\
  result reset world0 = Ok tt /\
  result file (exec reset world0) = Ok None /\
  result notebook (exec reset world0) = Ok false /\
  result server_enabled (exec reset world0) = Ok false /\
  result session_id_allowing_none (exec reset world0) = Ok None /\
  _session_coords (self (exec reset world0)) = coords_empty /\
  _SessionCoordinates_init ∅
    = Ok (_session_coords (self (exec reset world0))).
Proof.
  split; [reflexivity|].
  apply (reset_clears_output_modes world0). reflexivity.
Defined.

Lemma reset_installs_new_document_witness :
  world_wf world0 /\
  _document (self (exec reset world0)) ≠ _document (self world0) /\
  _document (self (exec reset (run [OutputNotebook; Reset; SetDocument 0]
                                 (exec reset world0))))
    ≠ _document (self (exec reset world0)).
Proof.
  assert (world_wf world0) as Hwf.
  { unfold world_wf. simpl. apply elem_of_dom. by exists Document_empty. }
  split; [exact Hwf|].
  destruct (reset_installs_new_document world0 Hwf) as (_ & _ & Hne & Hany).
  split; [exact Hne|apply Hany].
Defined.

Lemma reset_keeping_doc_keeps_document_witness :
  coords_check ∅ = None /\
  _document (self (exec _reset_keeping_doc world0)) = 0 /\
  heap (exec _reset_keeping_doc world0) = heap world0.
Proof.
  split; [reflexivity|].
  destruct (reset_keeping_doc_keeps_document world0 eq_refl)
    as (_ & _ & _ & _ & _ & Hd & Hh).
  split; [exact Hd|exact Hh].
Defined.

Lemma init_gives_reset_configuration_witness :
  coords_check ∅ = None /\
  result __init__ world0 = Ok tt /\
  last_comms_handle (self (exec __init__ world0)) = None.
Proof.
  split; [reflexivity|].
  destruct (init_gives_reset_configuration world0 eq_refl) as (Hr & Hl & _).
  split; [exact Hr|exact Hl].
Defined.

Lemma output_file_last_write_wins_witness :
  Resources_init "inline" None
    = Ok {| res_mode := inline; res_root_dir := None |} /\
  _file (self (exec (output_file "b.html" "Bokeh Plot" "inline" None)
                 (exec (output_file "a.html" "First" "cdn" None) world0)))
    = Some (file_config "b.html" "Bokeh Plot"
              {| res_mode := inline; res_root_dir := None |}).
Proof.
  split; [reflexivity|].
  apply (output_file_last_write_wins world0 "a.html" "First" "cdn" None
           "b.html" "Bokeh Plot" "inline" None
           {| res_mode := inline; res_root_dir := None |}).
  reflexivity.
Defined.

Lemma notebook_then_file_both_active_witness :
  Resources_init output_file_mode_default output_file_root_dir_default
    = Ok {| res_mode := cdn; res_root_dir := None |} /\
  result notebook
    (exec (output_notebook ;;
           output_file "a.html" output_file_title_default
             output_file_mode_default output_file_root_dir_default)
       world0)
    = Ok true.
Proof.
  split; [reflexivity|].
  apply (notebook_then_file_both_active world0 "a.html"
           output_file_title_default output_file_mode_default
           output_file_root_dir_default
           {| res_mode := cdn; res_root_dir := None |}).
  reflexivity.
Defined.

Lemma output_file_existing_file_is_no_error_witness :
  Resources_init "cdn" None = Ok {| res_mode := cdn; res_root_dir := None |} /\
  result (output_file "a.html" "Bokeh Plot" "cdn" None) world0 = Ok tt /\
  info_log (exec (output_file "a.html" "Bokeh Plot" "cdn" None) world0)
    = [exists_message "a.html"].
Proof.
  split; [reflexivity|].
  destruct (output_file_existing_file_is_no_error world0 "a.html"
              "Bokeh Plot" "cdn" None) as [_ Hok].
  destruct (Hok {| res_mode := cdn; res_root_dir := None |} eq_refl)
    as (Hr & _ & Hl).
  split; [exact Hr|exact Hl].
Defined.

Lemma output_server_sets_session_id_witness :
  coords_check (server_props "x" output_server_url_default
                  output_server_app_path_default) = None /\
  result server_enabled
    (exec (output_server "x" output_server_url_default
             output_server_app_path_default) world0) = Ok true /\
  result session_id
    (exec (output_server "x" output_server_url_default
             output_server_app_path_default) world0) = Ok "x".
Proof.
  split; [reflexivity|].
  destruct (output_server_sets_session_id world0 "x"
              output_server_url_default output_server_app_path_default
              eq_refl) as (_ & He & Hs & _).
  split; [exact He|exact Hs].
Defined.



Lemma output_file_raise_changes_nothing_witness :
  Resources_init "bogus" None = Raise (ValueError "unknown resources mode") /\
  result file (exec (output_file "a.html" "t" "bogus" None) world_on)
    = Ok (Some {[ "filename" := VStr "old.html" ]}) /\
  info_log (exec (output_file "a.html" "t" "bogus" None) world_on)
    = ["earlier"].
Proof.
  split; [reflexivity|].
  destruct (output_file_raise_changes_nothing world_on "a.html" "t" "bogus"
              None (ValueError "unknown resources mode") eq_refl) as [_ ->].
  split; reflexivity.
Defined.

Lemma output_server_raise_changes_nothing_witness :
  _SessionCoordinates_init (server_props "x" "" "/")
    = Raise (ValueError "empty url") /\
  result (output_server "x" "" "/") world0 = Raise (ValueError "empty url") /\
  result server_enabled (exec (output_server "x" "" "/") world0) = Ok false.
Proof.
  split; [reflexivity|].
  destruct (output_server_raise_changes_nothing world0 "x" "" "/"
              (ValueError "empty url") eq_refl) as [Hr ->].
  split; [exact Hr|reflexivity].
Defined.

Lemma output_file_repeated_witness :
  Resources_init "cdn" None = Ok {| res_mode := cdn; res_root_dir := None |} /\
  info_log (exec (output_file "a.html" "t" "cdn" None)
              (exec (output_file "a.html" "t" "cdn" None) world0))
    = [exists_message "a.html"; exists_message "a.html"].
Proof.
  split; [reflexivity|].
  destruct (output_file_repeated world0 "a.html" "t" "cdn" None) as [_ Hlog].
  exact (Hlog {| res_mode := cdn; res_root_dir := None |} eq_refl).
Defined.

Lemma output_server_last_write_wins_witness :
  _SessionCoordinates_init (server_props "y" "http://h" "/app")
    = Ok {| coord_session_id := Some "y"; coord_url := Some "http://h";
            coord_app_path := Some "/app" |} /\
  _session_coords
    (self (exec (output_server "y" "http://h" "/app")
             (exec (output_server "x" "default" "/") world0)))
    = {| coord_session_id := Some "y"; coord_url := Some "http://h";
         coord_app_path := Some "/app" |}.
Proof.
  split; [reflexivity|].
  destruct (output_server_last_write_wins world0 "x" "default" "/"
              "y" "http://h" "/app" _ eq_refl) as (Hc & _ & _).
  exact Hc.
Defined.

Lemma modes_stay_active_without_reset_witness :
  Forall (fun op => is_reset_variant op = false)
    [OutputFile "b.html" "t" "bogus" None; SetDocument 9;
     OutputServer "x" "" "/"; Get A_url; NewDocument] /\
  _notebook (self world_on) = true /\
  _notebook
    (self (run [OutputFile "b.html" "t" "bogus" None; SetDocument 9;
                OutputServer "x" "" "/"; Get A_url; NewDocument] world_on))
    = true.
Proof.
  assert (Forall (fun op => is_reset_variant op = false)
            [OutputFile "b.html" "t" "bogus" None; SetDocument 9;
             OutputServer "x" "" "/"; Get A_url; NewDocument]) as Hall.
  { repeat constructor. }
  split; [exact Hall|]. split; [reflexivity|].
  destruct (modes_stay_active_without_reset _ world_on Hall) as (Hn & _ & _).
  apply Hn. reflexivity.
Defined.

Lemma documents_are_never_altered_witness :
  heap world_on !! 0 = Some {| roots := [4; 5] |} /\
  heap (run [Reset; OutputNotebook; ResetWithDoc 0; Reset] world_on) !! 0
    = Some {| roots := [4; 5] |}.
Proof.
  split; [reflexivity|].
  apply (documents_are_never_altered
           [Reset; OutputNotebook; ResetWithDoc 0; Reset] world_on 0).
  reflexivity.
Defined.

Lemma files_untouched_log_grows_witness :
  Forall (fun op => is_output_file op = false)
    [Reset; OutputNotebook; OutputServer "x" "default" "/"] /\
  info_log (run [Reset; OutputNotebook; OutputServer "x" "default" "/"]
              world_on)
    = ["earlier"].
Proof.
  assert (Forall (fun op => is_output_file op = false)
            [Reset; OutputNotebook; OutputServer "x" "default" "/"]) as Hall.
  { repeat constructor. }
  split; [exact Hall|].
  destruct (files_untouched_log_grows
              [Reset; OutputNotebook; OutputServer "x" "default" "/"]
              world_on) as (_ & _ & Hsame).
  exact (Hsame Hall).
Defined.

Lemma document_always_in_store_witness :
  scoped [NewDocument; SetDocument 0; Reset] (exec __init__ world0) /\
  world_wf (run [NewDocument; SetDocument 0; Reset] (exec __init__ world0)).
Proof.
  assert (scoped [NewDocument; SetDocument 0; Reset] (exec __init__ world0))
    as Hsc.
  { simpl. split; [done|]. split; [|done].
    apply elem_of_dom. exists Document_empty. by vm_compute. }
  split; [exact Hsc|].
  apply (document_always_in_store _ world0 Hsc).
Defined.
